(** * Okta "unassign user from group" action: a shallow embedding

    The action is a JavaScript module with three handlers, [invoke],
    [error] and [halt].  Its canonical source is [src/script.mjs] (the second
    half of [src/tests/script.test.js]); the bundled build [src/dist/index.js]
    carries an older copy of the handlers together with the [getBaseUrl]
    helper of the shared utilities package.

    Modelling choices.
    - JavaScript values are the inductive [jsval]; objects are association
      lists of own properties, an [Error] object is [JError message statusCode].
    - Strings are Stdlib [string]s, read as UTF-8 byte strings.
    - A handler runs in the writer-with-exceptions monad [M]: it either
      returns ([Ok]) or throws a JavaScript value ([Throw]), and it emits the
      list of observable events (console lines and network requests).
      [await] is sequencing in [M]. *)

From Stdlib Require Import ZArith List String Ascii Bool Lia.
Import ListNotations.
Open Scope string_scope.
Set Warnings "-register-all".

(* ------------------------------------------------------------------ *)
(** ** JavaScript values *)

Inductive jsval : Type :=
| JUndef
| JNull
| JBool (b : bool)
| JNum (n : Z)
| JStr (s : string)
| JObj (fields : list (string * jsval))
| JError (message : string) (statusCode : option Z).

(** Own-property lookup on an object literal; an absent key reads as
    [undefined]. *)
Fixpoint field (fs : list (string * jsval)) (k : string) : jsval :=
  match fs with
  | [] => JUndef
  | (k', v) :: fs' => if String.eqb k k' then v else field fs' k
  end.

(** JavaScript truthiness ([!x], [x || y], [if (x)]). *)
Definition truthy (v : jsval) : bool :=
  match v with
  | JUndef | JNull => false
  | JBool b => b
  | JNum n => negb (Z.eqb n 0)
  | JStr s => negb (String.eqb s "")
  | JObj _ | JError _ _ => true
  end.

Definition is_object (v : jsval) : bool :=
  match v with JObj _ | JError _ _ => true | _ => false end.

(** Decimal rendering of an integer, as [String(n)] prints it. *)
Fixpoint uint_to_string (d : Decimal.uint) : string :=
  match d with
  | Decimal.Nil => ""
  | Decimal.D0 d => String "0" (uint_to_string d)
  | Decimal.D1 d => String "1" (uint_to_string d)
  | Decimal.D2 d => String "2" (uint_to_string d)
  | Decimal.D3 d => String "3" (uint_to_string d)
  | Decimal.D4 d => String "4" (uint_to_string d)
  | Decimal.D5 d => String "5" (uint_to_string d)
  | Decimal.D6 d => String "6" (uint_to_string d)
  | Decimal.D7 d => String "7" (uint_to_string d)
  | Decimal.D8 d => String "8" (uint_to_string d)
  | Decimal.D9 d => String "9" (uint_to_string d)
  end.

Definition number_to_string (n : Z) : string :=
  match Z.to_int n with
  | Decimal.Pos d => uint_to_string d
  | Decimal.Neg d => "-" ++ uint_to_string d
  end.

(** [ToString] as used by template literals and [encodeURIComponent]. *)
Definition js_to_string (v : jsval) : string :=
  match v with
  | JUndef => "undefined"
  | JNull => "null"
  | JBool true => "true"
  | JBool false => "false"
  | JNum n => number_to_string n
  | JStr s => s
  | JObj _ => "[object Object]"
  | JError m _ => if String.eqb m "" then "Error" else "Error: " ++ m
  end.

(* ------------------------------------------------------------------ *)
(** ** Results, thrown values and the handler monad *)

Inductive result (A : Type) : Type :=
| Ok (a : A)
| Throw (e : jsval).
Arguments Ok {A} a.
Arguments Throw {A} e.

(** [new Error(msg)] *)
Definition new_error (msg : string) : jsval := JError msg None.

(** Property read [v.k]: reading a property of [undefined] or [null] throws
    a [TypeError]; primitives other than those have no property the code
    reads. *)
Definition get_prop (v : jsval) (k : string) : result jsval :=
  match v with
  | JUndef => Throw (new_error ("Cannot read properties of undefined (reading '" ++ k ++ "')"))
  | JNull => Throw (new_error ("Cannot read properties of null (reading '" ++ k ++ "')"))
  | JObj fs => Ok (field fs k)
  | JError m sc =>
      if String.eqb k "message" then Ok (JStr m)
      else if String.eqb k "statusCode" then
        Ok (match sc with Some n => JNum n | None => JUndef end)
      else Ok JUndef
  | _ => Ok JUndef
  end.

(** An HTTP request as handed to [fetch]. *)
Record request : Type := mkRequest {
  req_method : string;
  req_url : string;
  req_headers : list (string * string)
}.

(** The response of [fetch]: the status and the outcome of [response.json()]
    ([None] when the body is not JSON and [json()] rejects). *)
Record response : Type := mkResponse {
  resp_status : Z;
  resp_json : option jsval
}.

(** [response.ok] of the Fetch standard: status in 200..299. *)
Definition resp_ok (r : response) : bool :=
  (200 <=? resp_status r)%Z && (resp_status r <=? 299)%Z.

Inductive event : Type :=
| EvLog (line : string)
| EvWarn (line : string)
| EvError (line : string)
| EvFetch (r : request).

Definition M (A : Type) : Type := (result A * list event)%type.

Definition ret {A} (a : A) : M A := (Ok a, []).
Definition throw {A} (e : jsval) : M A := (Throw e, []).
Definition lift {A} (r : result A) : M A := (r, []).
Definition emit (e : event) : M unit := (Ok tt, [e]).

Definition bind {A B} (m : M A) (f : A -> M B) : M B :=
  match m with
  | (Ok a, w) => let (r, w') := f a in (r, app w w')
  | (Throw e, w) => (Throw e, w)
  end.

Notation "'let*' x ':=' m 'in' k" := (bind m (fun x => k))
  (at level 200, x name, m at level 100, k at level 200).
Notation "m ;; k" := (bind m (fun _ => k)) (at level 100, right associativity).

Definition network_calls (w : list event) : list request :=
  flat_map (fun e => match e with EvFetch r => [r] | _ => [] end) w.

(* ------------------------------------------------------------------ *)
(** ** String operations of the source *)

(** [s.endsWith(suf)] *)
Definition endsWith (s suf : string) : bool :=
  (String.length suf <=? String.length s)%nat &&
  String.eqb (substring (String.length s - String.length suf) (String.length suf) s) suf.

(** [s.slice(0, -1)] *)
Definition slice_drop_last (s : string) : string :=
  substring 0 (String.length s - 1) s.

(** [s.startsWith(p)] *)
Definition startsWith (s p : string) : bool := String.prefix p s.

(** [s.substring(n)] *)
Definition substring_from (n : nat) (s : string) : string :=
  substring n (String.length s - n) s.

(* ------------------------------------------------------------------ *)
(** ** Execution context *)

(** The context the framework passes to every handler: an object whose
    [environment], [secrets] and [data] properties may each be absent. *)
Record context : Type := mkContext {
  environment : jsval;
  secrets : jsval;
  data : jsval
}.

(** [context.secrets?.K] *)
Definition secret (ctx : context) (k : string) : jsval :=
  match secrets ctx with
  | JUndef | JNull => JUndef
  | JObj fs => field fs k
  | _ => JUndef
  end.

(* ------------------------------------------------------------------ *)
(** ** getBaseUrl (src/dist/index.js, lines 170-180) *)

Definition no_url_message : string :=
  "No URL specified. Provide address parameter or ADDRESS environment variable".

(** [const address = params?.address || env.ADDRESS], with
    [env = context.environment || {}]. *)
Definition address_of (params : jsval) (ctx : context) : result jsval :=
  let env := if truthy (environment ctx) then environment ctx else JObj [] in
  match (match params with JUndef | JNull => Ok JUndef | _ => get_prop params "address" end) with
  | Throw e => Throw e
  | Ok a => if truthy a then Ok a else get_prop env "ADDRESS"
  end.

Definition getBaseUrl (params : jsval) (ctx : context) : result string :=
  match address_of params ctx with
  | Throw e => Throw e
  | Ok address =>
      if negb (truthy address) then Throw (new_error no_url_message)
      else match address with
           | JStr s => Ok (if endsWith s "/" then slice_drop_last s else s)
           | _ => Throw (new_error "address.endsWith is not a function")
           end
  end.

(* ------------------------------------------------------------------ *)
(** ** encodeURIComponent *)

(** The characters [encodeURIComponent] leaves as they are:
    [A-Z a-z 0-9 - _ . ! ~ * ' ( )]. *)
Definition uri_unreserved (c : ascii) : bool :=
  let n := nat_of_ascii c in
  ((48 <=? n) && (n <=? 57))%nat || ((65 <=? n) && (n <=? 90))%nat ||
  ((97 <=? n) && (n <=? 122))%nat ||
  existsb (Ascii.eqb c) (list_ascii_of_string "-_.!~*'()").

Definition hex_digit (n : nat) : ascii :=
  ascii_of_nat (if (n <? 10)%nat then 48 + n else 55 + n).

(** Every other byte becomes [%XY] with upper-case hex digits (on UTF-8
    text this is the encoding of each code point's UTF-8 bytes). *)
Fixpoint encodeURIComponent (s : string) : string :=
  match s with
  | EmptyString => EmptyString
  | String c s' =>
      if uri_unreserved c then String c (encodeURIComponent s')
      else
        let n := nat_of_ascii c in
        String "%" (String (hex_digit (n / 16)) (String (hex_digit (n mod 16))
          (encodeURIComponent s')))
  end.

(* ------------------------------------------------------------------ *)
(** ** Network access *)

(** [await fetch(r)]: the request is recorded, and [server] gives the
    outcome (a response, or a rejection for a network failure). *)
Definition fetch (server : request -> result response) (r : request) : M response :=
  (server r, [EvFetch r]).

(** The Okta convention for API tokens (src/script.mjs, lines 270-274):
    a generic [Bearer <token>] header becomes [SSWS <token>], unless the
    token already carries the [SSWS ] prefix. *)
Definition okta_auth_header (authHeader : string) : string :=
  if startsWith authHeader "Bearer " then
    let token := substring_from 7 authHeader in
    if startsWith token "SSWS " then token else "SSWS " ++ token
  else authHeader.

(** The request [unassignUserFromGroup] sends (src/script.mjs, 202-220). *)
Definition unassign_request (userId groupId : jsval) (baseUrl authHeader : string)
  : request :=
  let encodedUserId := encodeURIComponent (js_to_string userId) in
  let encodedGroupId := encodeURIComponent (js_to_string groupId) in
  let url := baseUrl ++ "/api/v1/groups/" ++ encodedGroupId ++ "/users/" ++ encodedUserId in
  mkRequest "DELETE" url
    [("Authorization", authHeader); ("Accept", "application/json");
     ("Content-Type", "application/json")].

Definition failure_prefix : string := "Failed to remove user from group: ".

(** The error-message computation of [invoke] for a non-ok response,
    including its [try]/[catch] around [response.json()] and the read of
    [errorBody.errorSummary] (src/script.mjs, 298-311). *)
Definition read_error_message (statusCode : Z) (resp : response) : M string :=
  let default := failure_prefix ++ "HTTP " ++ number_to_string statusCode in
  match resp_json resp with
  | None => emit (EvError "Failed to parse error response");; ret default
  | Some errorBody =>
      match get_prop errorBody "errorSummary" with
      | Throw _ => emit (EvError "Failed to parse error response");; ret default
      | Ok summary =>
          let errorMessage :=
            if truthy summary then failure_prefix ++ js_to_string summary else default in
          emit (EvError ("Okta API error response: " ++ js_to_string errorBody));;
          ret errorMessage
      end
  end.

(** [context.environment?.K] *)
Definition env_var (ctx : context) (k : string) : jsval :=
  match environment ctx with
  | JObj fs => field fs k
  | _ => JUndef
  end.

(** [context.data || {}] *)
Definition job_context (ctx : context) : jsval :=
  if truthy (data ctx) then data ctx else JObj [].

(** The result record of a successful [invoke]. *)
Record invoke_result : Type := mkInvokeResult {
  res_userId : jsval;
  res_groupId : jsval;
  removed : bool;
  address : string;
  removedAt : string
}.

(** The result record of [halt]. *)
Record halt_result : Type := mkHaltResult {
  h_userId : jsval;
  h_groupId : jsval;
  h_reason : jsval;
  haltedAt : string;
  cleanupCompleted : bool
}.

Section Action.

(** [resolveJSONPathTemplates(params, jobContext)] of the utilities
    package: the resolved parameters and the list of resolution errors. *)
Variable resolveJSONPathTemplates : jsval -> jsval -> jsval * list jsval.
(** The outcome of each network request. *)
Variable server : request -> result response.
(** [new Date().toISOString()] at the time of the call. *)
Variable now : string.
(** Base64 encoding used by the basic scheme. *)
Variable base64 : string -> string.
(** The OAuth2 client-credentials token exchange (it may itself perform
    network requests and fail). *)
Variable client_credentials_token : context -> M string.

(** Modelled from the spec: [getAuthorizationHeader] of the utilities
    package [@sgnl-actions/utils], whose code is not part of this
    repository.  Spec 4.1 step 4: the four schemes, in the order listed
    there, each used when its credential material is present; with none,
    an [AuthenticationError] "No authentication configured".  No scheme
    but the client-credentials one touches the network. *)
Definition getAuthorizationHeader (ctx : context) : M string :=
  let bearer := secret ctx "BEARER_AUTH_TOKEN" in
  let user := secret ctx "BASIC_USERNAME" in
  let pass := secret ctx "BASIC_PASSWORD" in
  let access := secret ctx "OAUTH2_AUTHORIZATION_CODE_ACCESS_TOKEN" in
  if truthy bearer then ret ("Bearer " ++ js_to_string bearer)
  else if truthy user && truthy pass then
    ret ("Basic " ++ base64 (js_to_string user ++ ":" ++ js_to_string pass))
  else if truthy (secret ctx "OAUTH2_CLIENT_CREDENTIALS_CLIENT_SECRET")
          && truthy (env_var ctx "OAUTH2_CLIENT_CREDENTIALS_CLIENT_ID")
          && truthy (env_var ctx "OAUTH2_CLIENT_CREDENTIALS_TOKEN_URL") then
    let* token := client_credentials_token ctx in ret ("Bearer " ++ token)
  else if truthy access then ret ("Bearer " ++ js_to_string access)
  else throw (new_error "No authentication configured").

Definition unassignUserFromGroup (userId groupId : jsval) (baseUrl authHeader : string)
  : M response :=
  fetch server (unassign_request userId groupId baseUrl authHeader).

(** [invoke] (src/script.mjs, lines 251-317). *)
Definition invoke (params : jsval) (ctx : context) : M invoke_result :=
  let jobContext := job_context ctx in
  let (resolvedParams, errors) := resolveJSONPathTemplates params jobContext in
  (if (0 <? List.length errors)%nat then emit (EvWarn "Template resolution errors:")
   else ret tt);;
  let* userId := lift (get_prop resolvedParams "userId") in
  let* groupId := lift (get_prop resolvedParams "groupId") in
  emit (EvLog ("Starting Okta user group removal: user " ++ js_to_string userId
               ++ " from group " ++ js_to_string groupId));;
  let* baseUrl := lift (getBaseUrl resolvedParams ctx) in
  let* authHeader0 := getAuthorizationHeader ctx in
  let authHeader := okta_auth_header authHeader0 in
  let* response := unassignUserFromGroup userId groupId baseUrl authHeader in
  if resp_ok response then
    emit (EvLog ("Successfully removed user " ++ js_to_string userId
                 ++ " from group " ++ js_to_string groupId));;
    ret (mkInvokeResult userId groupId true baseUrl now)
  else
    let statusCode := resp_status response in
    let* errorMessage := read_error_message statusCode response in
    throw (JError errorMessage (Some statusCode)).

(** [error] (src/script.mjs, lines 326-333). *)
Definition error (params : jsval) (_ctx : context) : M unit :=
  let* err := lift (get_prop params "error") in
  let* userId := lift (get_prop params "userId") in
  let* groupId := lift (get_prop params "groupId") in
  let* msg := lift (get_prop err "message") in
  emit (EvError ("User group removal failed for user " ++ js_to_string userId
                 ++ " from group " ++ js_to_string groupId ++ ": " ++ js_to_string msg));;
  throw err.

(** [halt] (src/script.mjs, lines 341-355). *)
Definition halt (params : jsval) (_ctx : context) : M halt_result :=
  let* reason := lift (get_prop params "reason") in
  let* userId := lift (get_prop params "userId") in
  let* groupId := lift (get_prop params "groupId") in
  emit (EvLog ("User group removal job is being halted (" ++ js_to_string reason
               ++ ") for user " ++ js_to_string userId ++ " from group "
               ++ js_to_string groupId));;
  ret (mkHaltResult (if truthy userId then userId else JStr "unknown")
                    (if truthy groupId then groupId else JStr "unknown")
                    reason now true).

End Action.

(** ** The bundled build (src/dist/index.js, lines 194-293)

    The build carries the handlers of an earlier revision: it validates
    [userId] and [groupId] and reads the API token from
    [BEARER_AUTH_TOKEN] directly. *)
Module Dist.
Section DistAction.
Variable server : request -> result response.
Variable now : string.

Definition is_string (v : jsval) : bool :=
  match v with JStr _ => true | _ => false end.

(** [unassignUserFromGroup] of the build (lines 194-215). *)
Definition unassignUserFromGroup (userId groupId : jsval) (baseUrl : string)
  (authToken : jsval) : M response :=
  match authToken with
  | JStr t =>
      let authHeader := if startsWith t "SSWS " then t else "SSWS " ++ t in
      fetch server (unassign_request userId groupId baseUrl authHeader)
  | _ => throw (new_error "authToken.startsWith is not a function")
  end.

(** [invoke] of the build (lines 229-293). *)
Definition invoke (params : jsval) (ctx : context) : M invoke_result :=
  let* userId := lift (get_prop params "userId") in
  let* groupId := lift (get_prop params "groupId") in
  emit (EvLog ("Starting Okta user group removal: user " ++ js_to_string userId
               ++ " from group " ++ js_to_string groupId));;
  if negb (truthy userId) || negb (is_string userId) then
    throw (new_error "Invalid or missing userId parameter")
  else if negb (truthy groupId) || negb (is_string groupId) then
    throw (new_error "Invalid or missing groupId parameter")
  else
  let* baseUrl := lift (getBaseUrl params ctx) in
  if negb (truthy (secret ctx "BEARER_AUTH_TOKEN")) then
    throw (new_error "Missing required secret: BEARER_AUTH_TOKEN")
  else
  let authToken := secret ctx "BEARER_AUTH_TOKEN" in
  let* response := unassignUserFromGroup userId groupId baseUrl authToken in
  if resp_ok response then
    emit (EvLog ("Successfully removed user " ++ js_to_string userId
                 ++ " from group " ++ js_to_string groupId));;
    ret (mkInvokeResult userId groupId true baseUrl now)
  else
    let statusCode := resp_status response in
    let* errorMessage := read_error_message statusCode response in
    throw (JError errorMessage (Some statusCode)).

End DistAction.
End Dist.

(* ------------------------------------------------------------------ *)
(** ** A concrete environment for the examples *)

Definition no_templates (p _ : jsval) : jsval * list jsval := (p, []).
Definition answer (st : Z) (body : option jsval) (_ : request) : result response :=
  Ok (mkResponse st body).
Definition t0 : string := "2024-01-15T10:30:00.000Z".
Definition no_base64 (s : string) : string := s.
Definition no_exchange (_ : context) : M string := throw (new_error "token exchange").

Definition run_invoke (server : request -> result response) :=
  invoke no_templates server t0 no_base64 no_exchange.

Definition bearer_ctx (addr : jsval) : context :=
  mkContext (JObj [("ADDRESS", addr)])
            (JObj [("BEARER_AUTH_TOKEN", JStr "test-okta-token-123456")]) JUndef.

Definition test_fields : list (string * jsval) :=
  [("userId", JStr "user123"); ("groupId", JStr "group456");
   ("address", JStr "https://example.okta.com")].

Definition test_params : jsval := JObj test_fields.

(** [true] when [s] contains the character ['/']. *)
Definition has_slash (s : string) : bool :=
  existsb (fun c => Ascii.eqb c "/") (list_ascii_of_string s).

(** The segments of a path, split at every ['/']. *)
Fixpoint split_slash (s : string) : list string :=
  match s with
  | EmptyString => [""]
  | String c s' =>
      let rest := split_slash s' in
      if Ascii.eqb c "/" then "" :: rest
      else match rest with
           | seg :: segs => String c seg :: segs
           | [] => [String c ""]
           end
  end.

(** Modelled from the spec: whether one of the four credential schemes of
    spec 4.1 step 4 has its material present, the condition under which
    [getAuthorizationHeader] produces a header. *)
Definition auth_configured (ctx : context) : bool :=
  truthy (secret ctx "BEARER_AUTH_TOKEN")
  || (truthy (secret ctx "BASIC_USERNAME") && truthy (secret ctx "BASIC_PASSWORD"))
  || (truthy (secret ctx "OAUTH2_CLIENT_CREDENTIALS_CLIENT_SECRET")
      && truthy (env_var ctx "OAUTH2_CLIENT_CREDENTIALS_CLIENT_ID")
      && truthy (env_var ctx "OAUTH2_CLIENT_CREDENTIALS_TOKEN_URL"))
  || truthy (secret ctx "OAUTH2_AUTHORIZATION_CODE_ACCESS_TOKEN").

(* ------------------------------------------------------------------ *)
(** * Properties *)

(** ** Strings *)

Lemma substring_0_length : forall s, substring 0 (String.length s) s = s.
Proof. induction s as [|c s IH]; simpl; [reflexivity | now rewrite IH]. Qed.

Lemma substring_split : forall s k,
  substring 0 k s ++ substring k (String.length s - k) s = s.
Proof.
  induction s as [|c s IH]; intros [|k]; simpl.
  - reflexivity.
  - reflexivity.
  - now rewrite substring_0_length.
  - now rewrite IH.
Qed.

Lemma endsWith_slash : forall a,
  endsWith a "/" = true -> a = slice_drop_last a ++ "/".
Proof.
  intros a H. unfold endsWith in H. simpl String.length in H.
  apply andb_prop in H as [Hlen Heq].
  apply Nat.leb_le in Hlen. apply String.eqb_eq in Heq.
  unfold slice_drop_last.
  rewrite <- Heq.
  replace 1%nat with (String.length a - (String.length a - 1))%nat at 3 by lia.
  now rewrite substring_split.
Qed.

Lemma startsWith_SSWS_not_Bearer : forall s,
  startsWith s "SSWS " = true -> startsWith s "Bearer " = false.
Proof.
  intros [|c s] H; [discriminate|].
  unfold startsWith in *. cbn [String.prefix] in *.
  destruct (ascii_dec "S" c) as [<-|]; [reflexivity | discriminate].
Qed.

Lemma substring_from_bearer : forall t, substring_from 7 ("Bearer " ++ t) = t.
Proof.
  intros t. unfold substring_from. simpl.
  rewrite Nat.sub_0_r. apply substring_0_length.
Qed.

Lemma hex_digit_not_slash : forall n, (n < 16)%nat -> Ascii.eqb (hex_digit n) "/" = false.
Proof.
  intros n H. do 16 (destruct n as [|n]; [reflexivity|]). lia.
Qed.

Lemma encodeURIComponent_no_slash : forall s, has_slash (encodeURIComponent s) = false.
Proof.
  unfold has_slash.
  induction s as [|c s IH]; [reflexivity|].
  cbn [encodeURIComponent]. destruct (uri_unreserved c) eqn:Hu;
    cbn [list_ascii_of_string existsb].
  - destruct (Ascii.eqb c "/") eqn:Hc; [|exact IH].
    apply Ascii.eqb_eq in Hc. subst c. discriminate Hu.
  - pose proof (Ascii.nat_ascii_bounded c) as Hb.
    rewrite !hex_digit_not_slash; [exact IH| |].
    + apply Nat.mod_upper_bound. lia.
    + apply Nat.Div0.div_lt_upper_bound. lia.
Qed.

Lemma split_slash_no_slash : forall s, has_slash s = false -> split_slash s = [s].
Proof.
  unfold has_slash.
  induction s as [|c s IH]; intros H; [reflexivity|].
  simpl in H. apply orb_false_iff in H as [Hc Hs].
  simpl. rewrite Hc, (IH Hs). reflexivity.
Qed.

Lemma split_slash_app : forall s t,
  has_slash s = false -> split_slash (s ++ String "/" t) = s :: split_slash t.
Proof.
  unfold has_slash.
  induction s as [|c s IH]; intros t H; [reflexivity|].
  simpl in H. apply orb_false_iff in H as [Hc Hs].
  simpl. rewrite (IH t Hs), Hc. reflexivity.
Qed.

Lemma address_of_object : forall fs ctx,
  address_of (JObj fs) ctx =
  Ok (if truthy (field fs "address") then field fs "address" else env_var ctx "ADDRESS").
Proof.
  intros fs ctx. unfold address_of, env_var. cbn [get_prop].
  destruct (truthy (field fs "address")); [reflexivity|].
  destruct (environment ctx) as [| |b|n|s|efs|m sc]; try reflexivity;
    cbn [truthy]; try destruct b; try destruct (negb (n =? 0)%Z);
    try destruct (negb (s =? "")); reflexivity.
Qed.

(** ** Authorization header *)

(** C4: a resolved header [Bearer <token>] is sent as [SSWS <token>], or as
    [<token>] itself when the token already starts with [SSWS ]; applying
    the rewrite to its own output changes nothing, so no header is ever
    prefixed twice. *)
Theorem okta_auth_header_ssws :
  (forall t, okta_auth_header ("Bearer " ++ t) =
             if startsWith t "SSWS " then t else "SSWS " ++ t) /\
  (forall h, okta_auth_header (okta_auth_header h) = okta_auth_header h).
Proof.
  split.
  - intros t. unfold okta_auth_header.
    replace (startsWith ("Bearer " ++ t) "Bearer ") with true by (destruct t; reflexivity).
    now rewrite substring_from_bearer.
  - intros h. unfold okta_auth_header. cbv zeta.
    destruct (startsWith h "Bearer ") eqn:Hb; cbv iota.
    + destruct (startsWith (substring_from 7 h) "SSWS ") eqn:Hs; cbv iota.
      * now rewrite (startsWith_SSWS_not_Bearer _ Hs).
      * reflexivity.
    + now rewrite Hb.
Qed.

(** ** Base URL *)

(** C6 (as the code has it): the base URL is the chosen address (the
    [address] parameter when truthy, else [ADDRESS]) with one trailing
    ['/'] removed when present; with neither set, resolution throws the
    "No URL specified" error. *)
Theorem getBaseUrl_one_trailing_slash :
  (forall params ctx a,
     address_of params ctx = Ok (JStr a) -> a <> "" ->
     exists r, getBaseUrl params ctx = Ok r /\
       ((endsWith a "/" = true /\ a = r ++ "/") \/ (endsWith a "/" = false /\ r = a))) /\
  (forall fs ctx,
     truthy (field fs "address") = false -> truthy (env_var ctx "ADDRESS") = false ->
     getBaseUrl (JObj fs) ctx = Throw (new_error no_url_message)).
Proof.
  split.
  - intros params ctx a Ha Hne. unfold getBaseUrl. rewrite Ha.
    assert (Ht : truthy (JStr a) = true).
    { cbn. destruct (String.eqb_spec a ""); [contradiction | reflexivity]. }
    rewrite Ht. cbn [negb].
    destruct (endsWith a "/") eqn:He; eexists; split; try reflexivity.
    + left. split; [reflexivity|]. now apply endsWith_slash.
    + right. now split.
  - intros fs ctx Hp He. unfold getBaseUrl. rewrite address_of_object, Hp, He.
    reflexivity.
Qed.

(** C6, counterexample: an address ending in two slashes resolves to a base
    URL that still ends in ['/']. *)
Lemma getBaseUrl_double_slash_kept :
  getBaseUrl (JObj [("address", JStr "https://example.okta.com//")])
             (mkContext JUndef JUndef JUndef) = Ok "https://example.okta.com/" /\
  endsWith "https://example.okta.com/" "/" = true.
Proof. split; reflexivity. Qed.

(** ** Request URL *)

(** C7: the DELETE request goes to
    [baseUrl/api/v1/groups/<enc groupId>/users/<enc userId>], each
    identifier percent-encoded on its own; an encoded identifier contains
    no ['/'], so the path splits into exactly the segments below and each
    identifier is one segment of its own. *)
Theorem unassign_url_segments :
  forall server userId groupId baseUrl authHeader,
  let eg := encodeURIComponent groupId in
  let eu := encodeURIComponent userId in
  (exists r, snd (unassignUserFromGroup server (JStr userId) (JStr groupId) baseUrl authHeader)
               = [EvFetch r] /\
             req_method r = "DELETE" /\
             req_url r = baseUrl ++ "/api/v1/groups/" ++ eg ++ "/users/" ++ eu) /\
  split_slash ("/api/v1/groups/" ++ eg ++ "/users/" ++ eu) =
    [""; "api"; "v1"; "groups"; eg; "users"; eu] /\
  has_slash eg = false /\ has_slash eu = false.
Proof.
  intros server userId groupId baseUrl authHeader eg eu.
  split; [|split; [|split; apply encodeURIComponent_no_slash]].
  - eexists. split; [reflexivity|]. split; reflexivity.
  - change ("/api/v1/groups/" ++ eg ++ "/users/" ++ eu) with
      ("" ++ String "/" ("api" ++ String "/" ("v1" ++ String "/" ("groups" ++ String "/"
         (eg ++ String "/" ("users" ++ String "/" eu)))))).
    rewrite (split_slash_app "" _ eq_refl), (split_slash_app "api" _ eq_refl),
      (split_slash_app "v1" _ eq_refl), (split_slash_app "groups" _ eq_refl),
      (split_slash_app eg _ (encodeURIComponent_no_slash groupId)),
      (split_slash_app "users" _ eq_refl),
      (split_slash_no_slash eu (encodeURIComponent_no_slash userId)).
    reflexivity.
Qed.

(** ** invoke *)

Lemma read_error_message_ok : forall st resp,
  exists m w, read_error_message st resp = (Ok m, w).
Proof.
  intros st resp. unfold read_error_message.
  destruct (resp_json resp) as [body|]; [|eexists; eexists; reflexivity].
  destruct (get_prop body "errorSummary"); eexists; eexists; reflexivity.
Qed.

(** Once the base URL and the header are resolved, [invoke] sends the
    DELETE request, and its outcome depends on the response alone. *)
Lemma invoke_after_fetch :
  forall resolve server now b64 cct params ctx fs errs baseUrl authHeader wa resp,
  resolve params (job_context ctx) = (JObj fs, errs) ->
  getBaseUrl (JObj fs) ctx = Ok baseUrl ->
  getAuthorizationHeader b64 cct ctx = (Ok authHeader, wa) ->
  server (unassign_request (field fs "userId") (field fs "groupId") baseUrl
            (okta_auth_header authHeader)) = Ok resp ->
  fst (invoke resolve server now b64 cct params ctx) =
    if resp_ok resp
    then Ok (mkInvokeResult (field fs "userId") (field fs "groupId") true baseUrl now)
    else match fst (read_error_message (resp_status resp) resp) with
         | Ok m => Throw (JError m (Some (resp_status resp)))
         | Throw e => Throw e
         end.
Proof.
  intros resolve server now b64 cct params ctx fs errs baseUrl authHeader wa resp
    Hres Hb Ha Hs.
  unfold invoke. rewrite Hres. cbv beta iota zeta.
  rewrite Hb, Ha.
  destruct (read_error_message_ok (resp_status resp) resp) as (m & w & Hm).
  destruct (0 <? List.length errs)%nat; cbn [bind lift emit ret get_prop];
    unfold unassignUserFromGroup, fetch; rewrite Hs; cbn [bind];
    destruct (resp_ok resp); cbn [bind emit ret throw fst]; try rewrite Hm;
    reflexivity.
Qed.

Lemma read_error_message_summary : forall st resp bfs,
  resp_json resp = Some (JObj bfs) -> truthy (field bfs "errorSummary") = true ->
  fst (read_error_message st resp) =
    Ok (failure_prefix ++ js_to_string (field bfs "errorSummary")).
Proof.
  intros st resp bfs Hj Ht. unfold read_error_message. rewrite Hj.
  cbn [get_prop]. rewrite Ht. reflexivity.
Qed.

Lemma read_error_message_default : forall st resp,
  (resp_json resp = None \/
   exists bfs, resp_json resp = Some (JObj bfs) /\ truthy (field bfs "errorSummary") = false) ->
  fst (read_error_message st resp) =
    Ok (failure_prefix ++ "HTTP " ++ number_to_string st).
Proof.
  intros st resp [Hj | (bfs & Hj & Ht)]; unfold read_error_message; rewrite Hj;
    [reflexivity|].
  cbn [get_prop]. rewrite Ht. reflexivity.
Qed.

Lemma getAuthorizationHeader_none : forall b64 cct ctx,
  auth_configured ctx = false ->
  getAuthorizationHeader b64 cct ctx = (Throw (new_error "No authentication configured"), []).
Proof.
  intros b64 cct ctx H. unfold auth_configured in H.
  apply orb_false_iff in H as [H H4]. apply orb_false_iff in H as [H H3].
  apply orb_false_iff in H as [H1 H2].
  unfold getAuthorizationHeader. rewrite H1, H2, H3, H4. reflexivity.
Qed.

(** C2: when the DELETE request is answered with an ok status, [invoke]
    returns [removed = true] with the [userId] and [groupId] it read
    (from the parameters after template resolution), [address] equal to
    the resolved base URL, and [removedAt] the completion time. *)
Theorem invoke_success_result :
  forall resolve server now b64 cct params ctx fs errs baseUrl authHeader wa resp,
  resolve params (job_context ctx) = (JObj fs, errs) ->
  getBaseUrl (JObj fs) ctx = Ok baseUrl ->
  getAuthorizationHeader b64 cct ctx = (Ok authHeader, wa) ->
  server (unassign_request (field fs "userId") (field fs "groupId") baseUrl
            (okta_auth_header authHeader)) = Ok resp ->
  resp_ok resp = true ->
  fst (invoke resolve server now b64 cct params ctx) =
    Ok (mkInvokeResult (field fs "userId") (field fs "groupId") true baseUrl now).
Proof.
  intros resolve server now b64 cct params ctx fs errs baseUrl authHeader wa resp
    Hres Hb Ha Hs Hok.
  rewrite (invoke_after_fetch _ _ _ _ _ _ _ _ _ _ _ _ _ Hres Hb Ha Hs), Hok.
  reflexivity.
Qed.

(** C3 (as the code has it): on a non-ok response [invoke] throws an
    [Error] carrying the status as [statusCode]; its message embeds the
    body's [errorSummary] when that is a non-empty string, and is
    ["Failed to remove user from group: HTTP <status>"] when the body is
    not JSON or its [errorSummary] is absent or falsy. *)
Theorem invoke_failure_message :
  forall resolve server now b64 cct params ctx fs errs baseUrl authHeader wa resp,
  resolve params (job_context ctx) = (JObj fs, errs) ->
  getBaseUrl (JObj fs) ctx = Ok baseUrl ->
  getAuthorizationHeader b64 cct ctx = (Ok authHeader, wa) ->
  server (unassign_request (field fs "userId") (field fs "groupId") baseUrl
            (okta_auth_header authHeader)) = Ok resp ->
  resp_ok resp = false ->
  exists msg,
    fst (invoke resolve server now b64 cct params ctx) =
      Throw (JError msg (Some (resp_status resp))) /\
    (forall bfs s, resp_json resp = Some (JObj bfs) -> field bfs "errorSummary" = JStr s ->
       s <> "" -> msg = failure_prefix ++ s) /\
    (resp_json resp = None ->
       msg = failure_prefix ++ "HTTP " ++ number_to_string (resp_status resp)) /\
    (forall bfs, resp_json resp = Some (JObj bfs) ->
       truthy (field bfs "errorSummary") = false ->
       msg = failure_prefix ++ "HTTP " ++ number_to_string (resp_status resp)).
Proof.
  intros resolve server now b64 cct params ctx fs errs baseUrl authHeader wa resp
    Hres Hb Ha Hs Hok.
  rewrite (invoke_after_fetch _ _ _ _ _ _ _ _ _ _ _ _ _ Hres Hb Ha Hs), Hok.
  destruct (read_error_message_ok (resp_status resp) resp) as (m & w & Hm).
  exists m. rewrite Hm. split; [reflexivity|]. split; [|split].
  - intros bfs s Hj Hf Hne.
    assert (Ht : truthy (field bfs "errorSummary") = true).
    { rewrite Hf. cbn. destruct (String.eqb_spec s ""); [contradiction | reflexivity]. }
    pose proof (read_error_message_summary (resp_status resp) resp bfs Hj Ht) as E.
    rewrite Hm, Hf in E. now injection E.
  - intros Hj.
    pose proof (read_error_message_default (resp_status resp) resp (or_introl Hj)) as E.
    rewrite Hm in E. now injection E.
  - intros bfs Hj Hf.
    pose proof (read_error_message_default (resp_status resp) resp
                  (or_intror (ex_intro _ bfs (conj Hj Hf)))) as E.
    rewrite Hm in E. now injection E.
Qed.

(** C3, counterexample: a JSON body whose [errorSummary] is the empty
    string does not give the message ["Failed to remove user from group: "];
    the status message is used instead. *)
Lemma invoke_empty_summary_not_embedded :
  fst (run_invoke (answer 404 (Some (JObj [("errorSummary", JStr "")])))
                  test_params (bearer_ctx JUndef)) =
    Throw (JError "Failed to remove user from group: HTTP 404" (Some 404%Z)) /\
  "Failed to remove user from group: HTTP 404" <> failure_prefix ++ "".
Proof. split; [reflexivity | unfold failure_prefix; simpl; discriminate]. Qed.

(** C10: a JSON error body whose [errorSummary] holds a falsy value (for
    instance the empty string) counts as having no summary: the message is
    ["Failed to remove user from group: HTTP <status>"]. *)
Theorem invoke_falsy_summary_default :
  forall resolve server now b64 cct params ctx fs errs baseUrl authHeader wa resp bfs,
  resolve params (job_context ctx) = (JObj fs, errs) ->
  getBaseUrl (JObj fs) ctx = Ok baseUrl ->
  getAuthorizationHeader b64 cct ctx = (Ok authHeader, wa) ->
  server (unassign_request (field fs "userId") (field fs "groupId") baseUrl
            (okta_auth_header authHeader)) = Ok resp ->
  resp_ok resp = false ->
  resp_json resp = Some (JObj bfs) ->
  truthy (field bfs "errorSummary") = false ->
  fst (invoke resolve server now b64 cct params ctx) =
    Throw (JError (failure_prefix ++ "HTTP " ++ number_to_string (resp_status resp))
                  (Some (resp_status resp))).
Proof.
  intros resolve server now b64 cct params ctx fs errs baseUrl authHeader wa resp bfs
    Hres Hb Ha Hs Hok Hj Hf.
  rewrite (invoke_after_fetch _ _ _ _ _ _ _ _ _ _ _ _ _ Hres Hb Ha Hs), Hok.
  rewrite (read_error_message_default (resp_status resp) resp
             (or_intror (ex_intro _ bfs (conj Hj Hf)))).
  reflexivity.
Qed.

(** C5: when no credential scheme has its material present (and the
    parameters carry a resolvable base URL), [invoke] throws "No
    authentication configured" and sends no request. *)
Theorem invoke_no_authentication :
  forall resolve server now b64 cct params ctx fs errs baseUrl,
  resolve params (job_context ctx) = (JObj fs, errs) ->
  getBaseUrl (JObj fs) ctx = Ok baseUrl ->
  auth_configured ctx = false ->
  fst (invoke resolve server now b64 cct params ctx) =
    Throw (new_error "No authentication configured") /\
  network_calls (snd (invoke resolve server now b64 cct params ctx)) = [].
Proof.
  intros resolve server now b64 cct params ctx fs errs baseUrl Hres Hb Hn.
  unfold invoke. rewrite Hres. cbv beta iota zeta.
  rewrite Hb, (getAuthorizationHeader_none b64 cct ctx Hn).
  destruct (0 <? List.length errs)%nat; split; reflexivity.
Qed.

(** C1, failing input: the canonical [invoke] does not check [userId]; with
    [userId] absent it still sends the DELETE request (to
    [.../users/undefined]) and reports success.  The bundled build rejects
    the same input ([dist_invoke_rejects_missing_userId]). *)
Theorem invoke_missing_userId_sends_request :
  fst (run_invoke (answer 204 None)
         (JObj [("groupId", JStr "group456"); ("address", JStr "https://example.okta.com")])
         (bearer_ctx JUndef)) =
    Ok (mkInvokeResult JUndef (JStr "group456") true "https://example.okta.com" t0) /\
  map req_url (network_calls (snd (run_invoke (answer 204 None)
         (JObj [("groupId", JStr "group456"); ("address", JStr "https://example.okta.com")])
         (bearer_ctx JUndef)))) =
    ["https://example.okta.com/api/v1/groups/group456/users/undefined"].
Proof. split; reflexivity. Qed.

(** The bundled build validates [userId] before any request. *)
Lemma dist_invoke_rejects_missing_userId : forall server now fs ctx,
  truthy (field fs "userId") = false ->
  fst (Dist.invoke server now (JObj fs) ctx) =
    Throw (new_error "Invalid or missing userId parameter") /\
  network_calls (snd (Dist.invoke server now (JObj fs) ctx)) = [].
Proof.
  intros server now fs ctx H. unfold Dist.invoke. cbn [get_prop lift bind emit].
  rewrite H. split; reflexivity.
Qed.

(** ** halt and error *)

(** C8: [halt] on any parameter object returns normally; [userId] and
    [groupId] are ["unknown"] when absent (or otherwise falsy) and kept
    otherwise, [reason] is the one supplied, [haltedAt] is the current time
    and [cleanupCompleted] is [true]. *)
Theorem halt_never_fails : forall now fs ctx,
  exists r w, halt now (JObj fs) ctx = (Ok r, w) /\
    h_reason r = field fs "reason" /\ haltedAt r = now /\ cleanupCompleted r = true /\
    (field fs "userId" = JUndef -> h_userId r = JStr "unknown") /\
    (field fs "groupId" = JUndef -> h_groupId r = JStr "unknown") /\
    (truthy (field fs "userId") = true -> h_userId r = field fs "userId") /\
    (truthy (field fs "groupId") = true -> h_groupId r = field fs "groupId").
Proof.
  intros now fs ctx. do 2 eexists. split; [reflexivity|].
  cbn [h_reason haltedAt cleanupCompleted h_userId h_groupId].
  repeat split; intros H; rewrite H; reflexivity.
Qed.

(** C9: [error] rethrows the very error object it was given, after one
    console line. *)
Theorem error_rethrows_same_object : forall fs ctx,
  is_object (field fs "error") = true ->
  exists line, error (JObj fs) ctx = (Throw (field fs "error"), [EvError line]).
Proof.
  intros fs ctx H. unfold error. cbn [get_prop lift bind].
  destruct (field fs "error"); try discriminate H; eexists; reflexivity.
Qed.

(** ** Witnesses *)

Lemma invoke_success_result_witness :
  fst (run_invoke (answer 204 None) test_params (bearer_ctx JUndef)) =
    Ok (mkInvokeResult (JStr "user123") (JStr "group456") true
                       "https://example.okta.com" t0).
Proof.
  apply (invoke_success_result no_templates (answer 204 None) t0 no_base64 no_exchange
           test_params (bearer_ctx JUndef) test_fields [] "https://example.okta.com"
           "Bearer test-okta-token-123456" [] (mkResponse 204 None));
    reflexivity.
Defined.

Lemma invoke_failure_message_witness :
  exists msg,
    fst (run_invoke (answer 404 (Some (JObj [("errorSummary", JStr "Not found")])))
                    test_params (bearer_ctx JUndef)) =
      Throw (JError msg (Some 404%Z)) /\
    (forall bfs s, Some (JObj [("errorSummary", JStr "Not found")]) = Some (JObj bfs) ->
       field bfs "errorSummary" = JStr s -> s <> "" -> msg = failure_prefix ++ s) /\
    (Some (JObj [("errorSummary", JStr "Not found")]) = None ->
       msg = failure_prefix ++ "HTTP " ++ number_to_string 404) /\
    (forall bfs, Some (JObj [("errorSummary", JStr "Not found")]) = Some (JObj bfs) ->
       truthy (field bfs "errorSummary") = false ->
       msg = failure_prefix ++ "HTTP " ++ number_to_string 404).
Proof.
  apply (invoke_failure_message no_templates
           (answer 404 (Some (JObj [("errorSummary", JStr "Not found")]))) t0 no_base64
           no_exchange test_params (bearer_ctx JUndef) test_fields [] "https://example.okta.com"
           "Bearer test-okta-token-123456" []
           (mkResponse 404 (Some (JObj [("errorSummary", JStr "Not found")]))));
    reflexivity.
Defined.

Lemma invoke_falsy_summary_default_witness :
  fst (run_invoke (answer 404 (Some (JObj [("errorSummary", JStr "")])))
                  test_params (bearer_ctx JUndef)) =
    Throw (JError (failure_prefix ++ "HTTP " ++ number_to_string 404) (Some 404%Z)).
Proof.
  apply (invoke_falsy_summary_default no_templates
           (answer 404 (Some (JObj [("errorSummary", JStr "")]))) t0 no_base64
           no_exchange test_params (bearer_ctx JUndef) test_fields [] "https://example.okta.com"
           "Bearer test-okta-token-123456" []
           (mkResponse 404 (Some (JObj [("errorSummary", JStr "")])))
           [("errorSummary", JStr "")]);
    reflexivity.
Defined.

Lemma invoke_no_authentication_witness :
  fst (run_invoke (answer 204 None) test_params (mkContext JUndef (JObj []) JUndef)) =
    Throw (new_error "No authentication configured") /\
  network_calls (snd (run_invoke (answer 204 None) test_params
                        (mkContext JUndef (JObj []) JUndef))) = [].
Proof.
  apply (invoke_no_authentication no_templates (answer 204 None) t0 no_base64 no_exchange
           test_params (mkContext JUndef (JObj []) JUndef) test_fields []
           "https://example.okta.com");
    reflexivity.
Defined.

Lemma error_rethrows_same_object_witness :
  exists line, error (JObj [("userId", JStr "user123"); ("error", new_error "Network timeout")])
                     (bearer_ctx JUndef) =
               (Throw (new_error "Network timeout"), [EvError line]).
Proof.
  apply (error_rethrows_same_object
           [("userId", JStr "user123"); ("error", new_error "Network timeout")]
           (bearer_ctx JUndef)).
  reflexivity.
Defined.

(* ------------------------------------------------------------------ *)
(** * Further properties of the code *)

(** ** Helpers *)

Lemma prefix_empty : forall s, String.prefix "" s = true.
Proof. intros [|c s]; reflexivity. Qed.

Lemma okta_auth_header_bearer : forall t,
  okta_auth_header ("Bearer " ++ t) = if startsWith t "SSWS " then t else "SSWS " ++ t.
Proof.
  intros t. unfold okta_auth_header.
  replace (startsWith ("Bearer " ++ t) "Bearer ") with true by (destruct t; reflexivity).
  now rewrite substring_from_bearer.
Qed.

Lemma startsWith_ssws_app : forall x, startsWith ("SSWS " ++ x) "SSWS " = true.
Proof. intros x. apply prefix_empty. Qed.

Lemma hex_digit_code : forall n, (n < 16)%nat ->
  nat_of_ascii (hex_digit n) = if (n <? 10)%nat then 48 + n else 55 + n.
Proof.
  intros n H. unfold hex_digit. apply Ascii.nat_ascii_embedding.
  destruct (n <? 10)%nat; lia.
Qed.

Lemma hex_digit_inj : forall a b, (a < 16)%nat -> (b < 16)%nat ->
  hex_digit a = hex_digit b -> a = b.
Proof.
  intros a b Ha Hb E. apply (f_equal nat_of_ascii) in E.
  rewrite (hex_digit_code a Ha), (hex_digit_code b Hb) in E.
  destruct (Nat.ltb_spec a 10), (Nat.ltb_spec b 10); lia.
Qed.

Lemma percent_reserved : uri_unreserved "%" = false.
Proof. reflexivity. Qed.

Lemma encode_inj : forall s1 s2,
  encodeURIComponent s1 = encodeURIComponent s2 -> s1 = s2.
Proof.
  induction s1 as [|c1 s1 IH]; intros [|c2 s2] E; cbn [encodeURIComponent] in E.
  - reflexivity.
  - destruct (uri_unreserved c2); discriminate E.
  - destruct (uri_unreserved c1); discriminate E.
  - destruct (uri_unreserved c1) eqn:H1, (uri_unreserved c2) eqn:H2.
    + injection E as -> E. now rewrite (IH s2 E).
    + injection E as -> _. rewrite percent_reserved in H1. discriminate H1.
    + injection E as <- _. rewrite percent_reserved in H2. discriminate H2.
    + pose proof (Ascii.nat_ascii_bounded c1) as B1.
      pose proof (Ascii.nat_ascii_bounded c2) as B2.
      remember (nat_of_ascii c1 / 16)%nat as q1 eqn:Q1.
      remember (nat_of_ascii c2 / 16)%nat as q2 eqn:Q2.
      remember (nat_of_ascii c1 mod 16)%nat as r1 eqn:R1.
      remember (nat_of_ascii c2 mod 16)%nat as r2 eqn:R2.
      injection E as Ed Em E.
      apply hex_digit_inj in Ed; [| subst q1; apply Nat.Div0.div_lt_upper_bound; lia
                                  | subst q2; apply Nat.Div0.div_lt_upper_bound; lia].
      apply hex_digit_inj in Em; [| subst r1; apply Nat.mod_upper_bound; lia
                                  | subst r2; apply Nat.mod_upper_bound; lia].
      assert (Hn : nat_of_ascii c1 = nat_of_ascii c2).
      { rewrite (Nat.div_mod_eq (nat_of_ascii c1) 16), (Nat.div_mod_eq (nat_of_ascii c2) 16).
        rewrite <- Q1, <- Q2, <- R1, <- R2. now rewrite Ed, Em. }
      rewrite <- (Ascii.ascii_nat_embedding c1), <- (Ascii.ascii_nat_embedding c2), Hn.
      now rewrite (IH s2 E).
Qed.

Lemma append_cancel_l : forall b x y, b ++ x = b ++ y -> x = y.
Proof.
  induction b as [|c b IH]; intros x y E; [exact E|].
  injection E as E. now apply IH.
Qed.

Lemma request_path_segments : forall eg eu,
  has_slash eg = false -> has_slash eu = false ->
  split_slash ("/api/v1/groups/" ++ eg ++ "/users/" ++ eu) =
    [""; "api"; "v1"; "groups"; eg; "users"; eu].
Proof.
  intros eg eu Hg Hu.
  change ("/api/v1/groups/" ++ eg ++ "/users/" ++ eu) with
    ("" ++ String "/" ("api" ++ String "/" ("v1" ++ String "/" ("groups" ++ String "/"
       (eg ++ String "/" ("users" ++ String "/" eu)))))).
  rewrite (split_slash_app "" _ eq_refl), (split_slash_app "api" _ eq_refl),
    (split_slash_app "v1" _ eq_refl), (split_slash_app "groups" _ eq_refl),
    (split_slash_app eg _ Hg), (split_slash_app "users" _ eq_refl),
    (split_slash_no_slash eu Hu).
  reflexivity.
Qed.

Lemma encode_unreserved_id : forall s,
  forallb uri_unreserved (list_ascii_of_string s) = true -> encodeURIComponent s = s.
Proof.
  induction s as [|c s IH]; intros H; [reflexivity|].
  cbn in H. apply andb_prop in H as [Hc Hs].
  cbn [encodeURIComponent]. rewrite Hc, (IH Hs). reflexivity.
Qed.

(** ** Authorization header *)

(** [okta_auth_header] leaves every header that does not start with
    [Bearer ] (for instance a [Basic] header) unchanged, and turns every
    header that does into one starting with [SSWS ]. *)
Theorem okta_auth_header_cases : forall h,
  (startsWith h "Bearer " = false -> okta_auth_header h = h) /\
  (startsWith h "Bearer " = true -> startsWith (okta_auth_header h) "SSWS " = true).
Proof.
  intros h. unfold okta_auth_header. cbv zeta. split; intros H; rewrite H; [reflexivity|].
  destruct (startsWith (substring_from 7 h) "SSWS ") eqn:Hs; [exact Hs|].
  apply startsWith_ssws_app.
Qed.

(** ** Percent-encoding and request URLs *)

(** [encodeURIComponent] is injective: distinct identifiers never encode
    to the same path segment. *)
Theorem encodeURIComponent_injective : forall s1 s2,
  encodeURIComponent s1 = encodeURIComponent s2 -> s1 = s2.
Proof. exact encode_inj. Qed.

(** An identifier made of unreserved characters only (letters, digits and
    [- _ . ! ~ * ' ( )], as Okta ids are) is put in the path verbatim. *)
Theorem encodeURIComponent_unreserved_id : forall s,
  forallb uri_unreserved (list_ascii_of_string s) = true -> encodeURIComponent s = s.
Proof. exact encode_unreserved_id. Qed.

(** Two DELETE requests to the same base URL have the same URL only when
    they name the same group and the same user. *)
Theorem unassign_url_injective : forall baseUrl u1 g1 u2 g2 h1 h2,
  req_url (unassign_request (JStr u1) (JStr g1) baseUrl h1) =
  req_url (unassign_request (JStr u2) (JStr g2) baseUrl h2) ->
  u1 = u2 /\ g1 = g2.
Proof.
  intros baseUrl u1 g1 u2 g2 h1 h2 E. cbn [unassign_request req_url js_to_string] in E.
  apply append_cancel_l in E. apply (f_equal split_slash) in E.
  rewrite !request_path_segments in E by apply encodeURIComponent_no_slash.
  injection E as Eg Eu. split; now apply encode_inj.
Qed.

(** ** Base URL precedence *)

(** A non-empty [address] parameter wins over [ADDRESS]; a falsy one
    (absent, empty, [null]) falls back to [ADDRESS]. *)
Theorem getBaseUrl_precedence :
  (forall fs ctx a, field fs "address" = JStr a -> a <> "" ->
     getBaseUrl (JObj fs) ctx = Ok (if endsWith a "/" then slice_drop_last a else a)) /\
  (forall fs ctx a, truthy (field fs "address") = false ->
     env_var ctx "ADDRESS" = JStr a -> a <> "" ->
     getBaseUrl (JObj fs) ctx = Ok (if endsWith a "/" then slice_drop_last a else a)).
Proof.
  split.
  - intros fs ctx a Hf Hne. unfold getBaseUrl. rewrite address_of_object, Hf.
    assert (Ht : truthy (JStr a) = true)
      by (cbn; destruct (String.eqb_spec a ""); [contradiction | reflexivity]).
    rewrite Ht. cbv iota. rewrite Ht. reflexivity.
  - intros fs ctx a Hf He Hne. unfold getBaseUrl. rewrite address_of_object, Hf, He.
    assert (Ht : truthy (JStr a) = true)
      by (cbn; destruct (String.eqb_spec a ""); [contradiction | reflexivity]).
    cbv iota. rewrite Ht. cbv iota. try rewrite Ht. reflexivity.
Qed.

(** ** invoke *)

Lemma fst_bind : forall A B (m : M A) (f : A -> M B),
  fst (bind m f) = match fst m with Ok a => fst (f a) | Throw e => Throw e end.
Proof.
  intros A B [[a|e] w] f; cbn; [destruct (f a); reflexivity | reflexivity].
Qed.

Lemma calls_bind : forall A B (m : M A) (f : A -> M B),
  network_calls (snd (bind m f)) =
  app (network_calls (snd m))
      (match fst m with Ok a => network_calls (snd (f a)) | Throw _ => [] end).
Proof.
  intros A B [[a|e] w] f; cbn.
  - destruct (f a) as [r w']. cbn. unfold network_calls. apply flat_map_app.
  - now rewrite app_nil_r.
Qed.

(** When the base URL cannot be resolved, [invoke] throws that error and
    sends no request: the address is checked before any network access. *)
Theorem invoke_base_url_error_no_request :
  forall resolve server now b64 cct params ctx fs errs e,
  resolve params (job_context ctx) = (JObj fs, errs) ->
  getBaseUrl (JObj fs) ctx = Throw e ->
  fst (invoke resolve server now b64 cct params ctx) = Throw e /\
  network_calls (snd (invoke resolve server now b64 cct params ctx)) = [].
Proof.
  intros resolve server now b64 cct params ctx fs errs e Hres Hb.
  unfold invoke. rewrite Hres. cbv beta iota zeta. rewrite Hb.
  destruct (0 <? List.length errs)%nat; split; reflexivity.
Qed.

(** Errors reported by template resolution are only logged: with the same
    resolved parameters, [invoke] has the same outcome whatever the list of
    resolution errors. *)
Theorem invoke_template_errors_non_fatal :
  forall resolve resolve' server now b64 cct params ctx rp errs errs',
  resolve params (job_context ctx) = (rp, errs) ->
  resolve' params (job_context ctx) = (rp, errs') ->
  fst (invoke resolve server now b64 cct params ctx) =
  fst (invoke resolve' server now b64 cct params ctx).
Proof.
  intros resolve resolve' server now b64 cct params ctx rp errs errs' H H'.
  unfold invoke. rewrite H, H'. cbv beta iota zeta.
  rewrite !fst_bind.
  destruct (0 <? List.length errs)%nat, (0 <? List.length errs')%nat; reflexivity.
Qed.

(** If resolving the header makes no request (every scheme but the
    client-credentials exchange), [invoke] sends at most one request, and
    it is a DELETE. *)
Theorem invoke_at_most_one_delete :
  forall resolve server now b64 cct params ctx,
  network_calls (snd (getAuthorizationHeader b64 cct ctx)) = [] ->
  (List.length (network_calls (snd (invoke resolve server now b64 cct params ctx))) <= 1)%nat /\
  Forall (fun r => req_method r = "DELETE")
         (network_calls (snd (invoke resolve server now b64 cct params ctx))).
Proof.
  intros resolve server now b64 cct params ctx Ha.
  assert (Hc : exists rs, network_calls (snd (invoke resolve server now b64 cct params ctx)) = rs
            /\ (rs = [] \/ exists r, rs = [r] /\ req_method r = "DELETE")).
  { eexists; split; [reflexivity|].
    unfold invoke. destruct (resolve params (job_context ctx)) as [rp errs].
    cbv beta iota zeta.
    destruct (0 <? List.length errs)%nat; rewrite calls_bind;
      cbn [emit ret fst snd network_calls flat_map app].
    all: rewrite calls_bind; cbn [lift fst snd network_calls flat_map app].
    all: destruct (get_prop rp "userId") as [u|]; [|now left].
    all: rewrite calls_bind; cbn [lift fst snd network_calls flat_map app].
    all: destruct (get_prop rp "groupId") as [g|]; [|now left].
    all: rewrite calls_bind; cbn [emit fst snd network_calls flat_map app].
    all: rewrite calls_bind; cbn [lift fst snd network_calls flat_map app].
    all: destruct (getBaseUrl rp ctx) as [b|]; [|now left].
    all: rewrite calls_bind, Ha; cbn [app].
    all: destruct (fst (getAuthorizationHeader b64 cct ctx)) as [h|]; [|now left].
    all: rewrite calls_bind; unfold unassignUserFromGroup, fetch; cbn [fst snd].
    all: destruct (server (unassign_request u g b (okta_auth_header h))) as [resp|].
    all: try (right; eexists; split; reflexivity).
    all: right; exists (unassign_request u g b (okta_auth_header h)); split; [|reflexivity].
    all: destruct (resp_ok resp); [reflexivity|].
    all: rewrite calls_bind.
    all: destruct (read_error_message_ok (resp_status resp) resp) as (m & w & Hm).
    all: rewrite Hm; unfold read_error_message in Hm.
    all: assert (Hwm : network_calls w = []) by
           (destruct (resp_json resp) as [body|];
              [destruct (get_prop body "errorSummary")|]; injection Hm as _ <-; reflexivity).
    all: cbn [fst snd]; rewrite Hwm; reflexivity. }
  destruct Hc as (rs & -> & [-> | (r & -> & Hr)]).
  - split; [cbn; lia | constructor].
  - split; [cbn; lia | constructor; [exact Hr | constructor]].
Qed.


(** ** error and halt *)


(** [halt] reports ["unknown"] for any falsy [userId] or [groupId] (absent,
    [null], the empty string), not only for an absent one. *)
Theorem halt_falsy_ids_unknown : forall now fs ctx,
  exists r, fst (halt now (JObj fs) ctx) = Ok r /\
    (truthy (field fs "userId") = false -> h_userId r = JStr "unknown") /\
    (truthy (field fs "groupId") = false -> h_groupId r = JStr "unknown").
Proof.
  intros now fs ctx. eexists. split; [reflexivity|].
  cbn [h_userId h_groupId]. split; intros H; rewrite H; reflexivity.
Qed.

(** ** The bundled build *)

Lemma truthy_nonempty : forall s, s <> "" -> truthy (JStr s) = true.
Proof. intros s H. cbn. destruct (String.eqb_spec s ""); [contradiction | reflexivity]. Qed.

(** The bundled [invoke] rejects a [userId], then a [groupId], that is not
    a non-empty string, before any request. *)
Theorem dist_invoke_validates_ids : forall server now fs ctx,
  (Dist.is_string (field fs "userId") && truthy (field fs "userId") = false ->
     fst (Dist.invoke server now (JObj fs) ctx) =
       Throw (new_error "Invalid or missing userId parameter") /\
     network_calls (snd (Dist.invoke server now (JObj fs) ctx)) = []) /\
  (Dist.is_string (field fs "userId") && truthy (field fs "userId") = true ->
   Dist.is_string (field fs "groupId") && truthy (field fs "groupId") = false ->
     fst (Dist.invoke server now (JObj fs) ctx) =
       Throw (new_error "Invalid or missing groupId parameter") /\
     network_calls (snd (Dist.invoke server now (JObj fs) ctx)) = []).
Proof.
  intros server now fs ctx. unfold Dist.invoke. cbn [get_prop lift bind emit].
  split.
  - intros H. replace (negb (truthy (field fs "userId")) || negb (Dist.is_string (field fs "userId")))
      with true by (destruct (Dist.is_string (field fs "userId")),
                              (truthy (field fs "userId")); cbn in *; congruence).
    split; reflexivity.
  - intros Hu Hg. apply andb_prop in Hu as [Hu1 Hu2]. rewrite Hu1, Hu2. cbn [negb orb].
    replace (negb (truthy (field fs "groupId")) || negb (Dist.is_string (field fs "groupId")))
      with true by (destruct (Dist.is_string (field fs "groupId")),
                              (truthy (field fs "groupId")); cbn in *; congruence).
    split; reflexivity.
Qed.

(** With valid identifiers and a resolvable base URL, the bundled [invoke]
    without a [BEARER_AUTH_TOKEN] secret throws "Missing required secret:
    BEARER_AUTH_TOKEN" and sends no request. *)
Theorem dist_invoke_missing_token : forall server now fs ctx u g baseUrl,
  field fs "userId" = JStr u -> u <> "" ->
  field fs "groupId" = JStr g -> g <> "" ->
  getBaseUrl (JObj fs) ctx = Ok baseUrl ->
  truthy (secret ctx "BEARER_AUTH_TOKEN") = false ->
  fst (Dist.invoke server now (JObj fs) ctx) =
    Throw (new_error "Missing required secret: BEARER_AUTH_TOKEN") /\
  network_calls (snd (Dist.invoke server now (JObj fs) ctx)) = [].
Proof.
  intros server now fs ctx u g baseUrl Hu Hun Hg Hgn Hb Hs.
  unfold Dist.invoke. cbn [get_prop lift bind emit]. rewrite Hu, Hg.
  rewrite (truthy_nonempty u Hun), (truthy_nonempty g Hgn). cbn [negb orb Dist.is_string].
  rewrite Hb, Hs. split; reflexivity.
Qed.

Lemma getAuthorizationHeader_bearer : forall b64 cct ctx t,
  secret ctx "BEARER_AUTH_TOKEN" = JStr t -> t <> "" ->
  getAuthorizationHeader b64 cct ctx = (Ok ("Bearer " ++ t), []).
Proof.
  intros b64 cct ctx t Hs Ht. unfold getAuthorizationHeader. rewrite Hs.
  rewrite (truthy_nonempty t Ht). reflexivity.
Qed.

(** With a non-empty [BEARER_AUTH_TOKEN], non-empty string identifiers and
    a resolvable base URL, the bundled [invoke] and the source [invoke]
    agree: same outcome and same requests. *)
Theorem dist_invoke_agrees_bearer :
  forall resolve server now b64 cct params ctx fs errs u g t baseUrl,
  resolve params (job_context ctx) = (JObj fs, errs) ->
  field fs "userId" = JStr u -> u <> "" ->
  field fs "groupId" = JStr g -> g <> "" ->
  getBaseUrl (JObj fs) ctx = Ok baseUrl ->
  secret ctx "BEARER_AUTH_TOKEN" = JStr t -> t <> "" ->
  fst (Dist.invoke server now (JObj fs) ctx) =
    fst (invoke resolve server now b64 cct params ctx) /\
  network_calls (snd (Dist.invoke server now (JObj fs) ctx)) =
    network_calls (snd (invoke resolve server now b64 cct params ctx)).
Proof.
  intros resolve server now b64 cct params ctx fs errs u g t baseUrl
         Hres Hu Hun Hg Hgn Hb Hs Ht.
  unfold invoke, Dist.invoke. rewrite Hres. cbv beta iota zeta.
  cbn [get_prop lift]. rewrite Hu, Hg.
  cbn [lift bind emit ret].
  rewrite (truthy_nonempty u Hun), (truthy_nonempty g Hgn).
  cbn [negb orb Dist.is_string]. rewrite Hb, Hs, (truthy_nonempty t Ht).
  cbn [negb lift bind]. rewrite (getAuthorizationHeader_bearer b64 cct ctx t Hs Ht).
  cbn [bind lift]. rewrite okta_auth_header_bearer.
  unfold unassignUserFromGroup, Dist.unassignUserFromGroup, fetch.
  set (r := unassign_request (JStr u) (JStr g) baseUrl
                (if startsWith t "SSWS " then t else "SSWS " ++ t)).
  destruct (0 <? List.length errs)%nat, (server r) as [resp|e]; cbn;
    try (destruct (resp_ok resp); cbn;
         [|destruct (read_error_message (resp_status resp) resp) as [[m|e] w]; cbn]);
    split; reflexivity.
Qed.

(** ** Witnesses of the further properties *)

Lemma encodeURIComponent_injective_witness :
  encodeURIComponent "a b/c" = encodeURIComponent "a b/c" /\ "a b/c" = "a b/c".
Proof.
  split; [reflexivity | apply encodeURIComponent_injective; reflexivity].
Defined.

Lemma encodeURIComponent_unreserved_id_witness :
  encodeURIComponent "00u1a2b3c4D5e6F7g8h9" = "00u1a2b3c4D5e6F7g8h9".
Proof. apply encodeURIComponent_unreserved_id; reflexivity. Defined.

Lemma unassign_url_injective_witness :
  "user123" = "user123" /\ "group456" = "group456".
Proof.
  apply (unassign_url_injective "https://example.okta.com" "user123" "group456"
           "user123" "group456" "SSWS a" "SSWS b").
  reflexivity.
Defined.

Lemma invoke_base_url_error_no_request_witness :
  fst (run_invoke (answer 204 None)
         (JObj [("userId", JStr "user123"); ("groupId", JStr "group456")])
         (bearer_ctx JUndef)) = Throw (new_error no_url_message) /\
  network_calls (snd (run_invoke (answer 204 None)
         (JObj [("userId", JStr "user123"); ("groupId", JStr "group456")])
         (bearer_ctx JUndef))) = [].
Proof.
  apply (invoke_base_url_error_no_request no_templates (answer 204 None) t0 no_base64
           no_exchange (JObj [("userId", JStr "user123"); ("groupId", JStr "group456")])
           (bearer_ctx JUndef) [("userId", JStr "user123"); ("groupId", JStr "group456")]
           [] (new_error no_url_message));
    reflexivity.
Defined.

Lemma invoke_template_errors_non_fatal_witness :
  fst (run_invoke (answer 204 None) test_params (bearer_ctx JUndef)) =
  fst (invoke (fun p _ => (p, [JStr "unresolved {$.job.id}"])) (answer 204 None) t0
         no_base64 no_exchange test_params (bearer_ctx JUndef)).
Proof.
  apply (invoke_template_errors_non_fatal no_templates
           (fun p _ => (p, [JStr "unresolved {$.job.id}"])) (answer 204 None) t0
           no_base64 no_exchange test_params (bearer_ctx JUndef) test_params []
           [JStr "unresolved {$.job.id}"]);
    reflexivity.
Defined.

Lemma invoke_at_most_one_delete_witness :
  (List.length (network_calls (snd (run_invoke (answer 500 None) test_params
                                      (bearer_ctx JUndef)))) <= 1)%nat /\
  Forall (fun r => req_method r = "DELETE")
         (network_calls (snd (run_invoke (answer 500 None) test_params (bearer_ctx JUndef)))).
Proof.
  apply (invoke_at_most_one_delete no_templates (answer 500 None) t0 no_base64 no_exchange
           test_params (bearer_ctx JUndef)).
  reflexivity.
Defined.


Lemma dist_invoke_missing_token_witness :
  fst (Dist.invoke (answer 204 None) t0 test_params (mkContext JUndef (JObj []) JUndef)) =
    Throw (new_error "Missing required secret: BEARER_AUTH_TOKEN") /\
  network_calls (snd (Dist.invoke (answer 204 None) t0 test_params
                        (mkContext JUndef (JObj []) JUndef))) = [].
Proof.
  apply (dist_invoke_missing_token (answer 204 None) t0 test_fields
           (mkContext JUndef (JObj []) JUndef) "user123" "group456"
           "https://example.okta.com");
    (reflexivity || discriminate).
Defined.

Lemma dist_invoke_agrees_bearer_witness :
  fst (Dist.invoke (answer 404 (Some (JObj [("errorSummary", JStr "Not found")]))) t0
         test_params (bearer_ctx JUndef)) =
    fst (run_invoke (answer 404 (Some (JObj [("errorSummary", JStr "Not found")])))
           test_params (bearer_ctx JUndef)) /\
  network_calls (snd (Dist.invoke (answer 404 (Some (JObj [("errorSummary", JStr "Not found")])))
                        t0 test_params (bearer_ctx JUndef))) =
    network_calls (snd (run_invoke (answer 404 (Some (JObj [("errorSummary", JStr "Not found")])))
                          test_params (bearer_ctx JUndef))).
Proof.
  apply (dist_invoke_agrees_bearer no_templates
           (answer 404 (Some (JObj [("errorSummary", JStr "Not found")]))) t0 no_base64
           no_exchange test_params (bearer_ctx JUndef) test_fields [] "user123" "group456"
           "test-okta-token-123456" "https://example.okta.com");
    (reflexivity || discriminate).
Defined.

Lemma okta_auth_header_cases_witness :
  okta_auth_header "SSWS abc" = "SSWS abc" /\
  startsWith (okta_auth_header "Bearer abc") "SSWS " = true.
Proof.
  split; [apply (okta_auth_header_cases "SSWS abc") | apply (okta_auth_header_cases "Bearer abc")];
    reflexivity.
Defined.

Lemma getBaseUrl_precedence_witness :
  getBaseUrl test_params (bearer_ctx (JStr "https://other.okta.com/")) =
    Ok "https://example.okta.com" /\
  getBaseUrl (JObj [("userId", JStr "user123")]) (bearer_ctx (JStr "https://other.okta.com/")) =
    Ok "https://other.okta.com".
Proof.
  split.
  - apply (proj1 getBaseUrl_precedence test_fields _ "https://example.okta.com");
      (reflexivity || discriminate).
  - apply (proj2 getBaseUrl_precedence [("userId", JStr "user123")] _ "https://other.okta.com/");
      (reflexivity || discriminate).
Defined.


Lemma halt_falsy_ids_unknown_witness :
  exists r, fst (halt t0 (JObj [("userId", JStr ""); ("groupId", JNull)]) (bearer_ctx JUndef)) = Ok r /\
    h_userId r = JStr "unknown" /\ h_groupId r = JStr "unknown".
Proof.
  destruct (halt_falsy_ids_unknown t0 [("userId", JStr ""); ("groupId", JNull)] (bearer_ctx JUndef))
    as [r [Hr [Hu Hg]]].
  exists r. split; [exact Hr | split; [apply Hu | apply Hg]; reflexivity].
Defined.

Lemma dist_invoke_validates_ids_witness :
  fst (Dist.invoke (answer 204 None) t0 (JObj [("userId", JStr "user123"); ("groupId", JNum 7)])
         (bearer_ctx JUndef)) = Throw (new_error "Invalid or missing groupId parameter") /\
  network_calls (snd (Dist.invoke (answer 204 None) t0
                        (JObj [("userId", JStr "user123"); ("groupId", JNum 7)])
                        (bearer_ctx JUndef))) = [].
Proof.
  apply (proj2 (dist_invoke_validates_ids (answer 204 None) t0
                  [("userId", JStr "user123"); ("groupId", JNum 7)] (bearer_ctx JUndef)));
    reflexivity.
Defined.
